(** * Temple crowd dashboard (src/app.py): a shallow embedding

    The Streamlit script is modelled as one run of the script per user
    interaction.  A run threads an explicit application state: the
    persisted file [temple_pulse.csv] and the trace of what the page
    displays or does (metrics, warnings, SMTP calls).  Python exceptions
    are an error result of a small state-and-exception monad.

    pandas is modelled at the level the script relies on.  [read_csv]
    infers one type per column from all of its cells (int64, then
    float64, then bool, else text), after turning the default
    missing-value markers into NaN; [to_csv] writes each value in
    pandas' format (NaN as an empty field, a float 7.0 as [7.0]) and
    quotes fields minimally.  Floating-point results (means, rounding)
    are computed with binary64 round-to-nearest-even. *)

From Stdlib Require Import List String Ascii ZArith QArith Qround Qpower Qabs Bool Lia Lqa.
From Stdlib Require Import Sorted Permutation DecimalString.
From Stdlib Require DecimalPos DecimalZ.
Import ListNotations.

Open Scope Z_scope.

(* -------------------- CONFIG -------------------- *)

Definition TEMPLES : list string :=
  ["Somnath"; "Dwarka"; "Ambaji"; "Pavagadh"]%string.
Definition DATA_FILE : string := "temple_pulse.csv".
Definition ALERT_EMAIL : string := "temple-alert@example.com".

Definition COLUMNS : list string :=
  ["timestamp"; "temple"; "zone"; "visitor_count"; "queue_time";
   "top_services"; "payment_modes"; "crowd_index"; "peak_hour_flag"]%string.

Definition PAYMENT_OPTIONS : list string := ["Cash"; "Card"; "UPI"; "Wallet"]%string.

(** Single characters used by the CSV writer. *)
Definition nl : string := String (ascii_of_nat 10) EmptyString.
Definition cr_char : ascii := ascii_of_nat 13.
Definition lf_char : ascii := ascii_of_nat 10.
Definition dq_char : ascii := ascii_of_nat 34.
Definition comma_char : ascii := ascii_of_nat 44.

(* -------------------- DATA MODEL -------------------- *)

(** A value of one of the text-like columns (timestamp, temple, zone,
    top_services, payment_modes) as pandas holds it after [read_csv]:
    - [Str s]: a string of an object column;
    - [NaN]: a missing value;
    - [CInt z]: an int64 of an integer column;
    - [CFloat z]: a float64 of a float column, here always integral
      (what [read_csv] makes of the integers of a column that also has
      a missing value or a [.0] literal);
    - [CBool b]: a bool of a boolean column;
    - [Opaque s]: a value of a column whose cells all look numeric
      (digits, signs, points, exponents, spaces, inf, nan) without
      being the integer literals above.  pandas reads such a column as
      float64 when every cell parses, else as text; this model leaves
      that reading open, keeps the cell's text, and the theorems that
      depend on how such a value prints assume there is none.
    A file row holds the text of each field as [Str]. *)
Inductive cell : Type :=
| Str (s : string)
| NaN
| CInt (z : Z)
| CFloat (z : Z)
| CBool (b : bool)
| Opaque (s : string).

(** [series == s] for a Python string [s]: only a string equals a
    string; numbers, booleans and NaN never do.  (An [Opaque] value is
    a number, or a text made of number characters, never equal to a
    temple name: those all contain letters outside that set.) *)
Definition cell_eqb (a b : cell) : bool :=
  match a, b with
  | Str x, Str y => String.eqb x y
  | _, _ => false
  end.

(** One row of the table (PulseRecord).  The numeric columns hold the
    Python ints the widgets return (Streamlit keeps them within
    2^53 in magnitude); pandas reads them back as int64, exactly. *)
Record Row : Type := mkRow {
  timestamp : cell;
  temple : cell;
  zone : cell;
  visitor_count : Z;
  queue_time : Z;
  top_services : cell;
  payment_modes : cell;
  crowd_index : Z;
  peak_hour_flag : bool
}.

(** A DataFrame: its column labels and its rows. *)
Record Frame : Type := mkFrame {
  columns : list string;
  rows : list Row
}.

(** pandas' default [na_values] of [read_csv]. *)
Definition NA_VALUES : list string :=
  [EmptyString; "#N/A"; "#N/A N/A"; "#NA"; "-1.#IND"; "-1.#QNAN"; "-NaN";
   "-nan"; "1.#IND"; "1.#QNAN"; "<NA>"; "N/A"; "NA"; "NULL"; "NaN"; "None";
   "n/a"; "nan"; "null"]%string.

Definition is_na (t : string) : bool := existsb (String.eqb t) NA_VALUES.

(** The characters pandas' number parsers can consume: digits, white
    space, signs, the decimal point, the exponent mark and the letters
    of inf, infinity and nan.  A cell holding any other character is
    neither an int64 nor a float64. *)
Definition numeric_char (c : ascii) : bool :=
  let n := nat_of_ascii c in
  ((48 <=? n) && (n <=? 57))%nat || ((9 <=? n) && (n <=? 13))%nat || (n =? 32)%nat
  || existsb (Ascii.eqb c) (list_ascii_of_string "+-.eEiInNfFtTyYaA").

Definition non_numeric (t : string) : bool :=
  existsb (fun c => negb (numeric_char c)) (list_ascii_of_string t).

(** The value of an integer literal: an optional minus sign and at
    least one decimal digit (leading zeros allowed).  [-0] is left out:
    the model does not use it. *)
Definition int_lit_value (t : string) : option Z :=
  match t with
  | EmptyString => None
  | String a rest =>
      if Ascii.eqb a "-" then
        match rest with
        | EmptyString => None
        | _ => match NilEmpty.uint_of_string rest with
               | Some d => if Z.eqb (Z.of_uint d) 0 then None else Some (- Z.of_uint d)
               | None => None
               end
        end
      else option_map Z.of_uint (NilEmpty.uint_of_string t)
  end.

(** A text pandas reads as an int64 (and, in a float column, as that
    integer exactly): an integer literal below 10^15 in magnitude.  An
    integer literal only has number characters. *)
Definition is_int_lit (t : string) : bool :=
  negb (non_numeric t) &&
  match int_lit_value t with Some z => Z.ltb (Z.abs z) (10 ^ 15) | None => false end.

(** [t] without a final [.0]. *)
Fixpoint strip_dot0 (t : string) : option string :=
  match t with
  | EmptyString => None
  | String c s =>
      match s with
      | String c2 EmptyString =>
          if Ascii.eqb c "." && Ascii.eqb c2 "0" then Some EmptyString
          else option_map (String c) (strip_dot0 s)
      | _ => option_map (String c) (strip_dot0 s)
      end
  end.

(** An integer literal followed by [.0]: a float64 holding that integer. *)
Definition is_intfloat_lit (t : string) : bool :=
  negb (non_numeric t) &&
  match strip_dot0 t with Some u => is_int_lit u | None => false end.

Fixpoint lower (t : string) : string :=
  match t with
  | EmptyString => EmptyString
  | String c s =>
      let n := nat_of_ascii c in
      String (if ((65 <=? n) && (n <=? 90))%nat then ascii_of_nat (n + 32) else c) (lower s)
  end.

(** The C parser's boolean literals: true and false in any case. *)
Definition is_bool_lit (t : string) : bool :=
  String.eqb (lower t) "true" || String.eqb (lower t) "false".

(** The dtype [read_csv] gives a column. *)
Inductive col_kind : Type :=
| KNaN       (* every cell missing: float64 NaN *)
| KInt       (* int64 *)
| KFloat     (* float64 of integral values *)
| KBool      (* bool (object when a cell is missing) *)
| KText      (* object: strings *)
| KOpaque.   (* number-like cells: float64 or object, left open *)

(** The C parser tries int64, then float64, then bool, and falls back
    to strings; a missing cell makes the int64 try fail.  A column
    becomes text for certain when one of its cells has a character no
    number has and one is not a boolean literal. *)
Definition kind_of (texts : list string) : col_kind :=
  let vs := filter (fun t => negb (is_na t)) texts in
  match vs with
  | [] => KNaN
  | _ =>
    if forallb is_int_lit vs then
      (if Nat.eqb (List.length vs) (List.length texts) then KInt else KFloat)
    else if forallb (fun t => is_int_lit t || is_intfloat_lit t) vs then KFloat
    else if forallb is_bool_lit vs then KBool
    else if existsb non_numeric vs then KText
    else KOpaque
  end.

(** The integer an integer or integer-[.0] literal denotes. *)
Definition lit_value (t : string) : Z :=
  match int_lit_value t with
  | Some z => z
  | None => match strip_dot0 t with
            | Some u => match int_lit_value u with Some z => z | None => 0 end
            | None => 0
            end
  end.

(** One cell of a column of the given dtype. *)
Definition read_as (k : col_kind) (t : string) : cell :=
  if is_na t then NaN else
  match k with
  | KNaN => NaN
  | KInt => CInt (lit_value t)
  | KFloat => CFloat (lit_value t)
  | KBool => CBool (String.eqb (lower t) "true")
  | KText => Str t
  | KOpaque => Opaque t
  end.


(** [str(int64)], [str(int)]. *)
Definition z_to_string (z : Z) : string := NilEmpty.string_of_int (Z.to_int z).

Definition bool_to_string (b : bool) : string :=
  if b then "True" else "False".

(** The text [to_csv] writes for a value. *)
Definition cell_text (c : cell) : string :=
  match c with
  | Str s => s
  | NaN => EmptyString
  | CInt z => z_to_string z
  | CFloat z => z_to_string z ++ ".0"
  | CBool b => bool_to_string b
  | Opaque s => s
  end.

Definition map_cells (f : cell -> cell) (r : Row) : Row :=
  {| timestamp := f (timestamp r);
     temple := f (temple r);
     zone := f (zone r);
     visitor_count := visitor_count r;
     queue_time := queue_time r;
     top_services := f (top_services r);
     payment_modes := f (payment_modes r);
     crowd_index := crowd_index r;
     peak_hour_flag := peak_hour_flag r |}.

(** A row as [to_csv] writes it: each value becomes its text. *)
Definition write_row : Row -> Row := map_cells (fun c => Str (cell_text c)).

(** The texts of one column of the file. *)
Definition column_texts (get : Row -> cell) (body : list Row) : list string :=
  map (fun r => cell_text (get r)) body.

(** [read_csv] of the data lines: each text-like column gets the dtype
    its cells call for; the numeric and flag columns hold ints and the
    True/False texts the app writes, read back as int64 and bool. *)
Definition read_rows (body : list Row) : list Row :=
  let k_ts := kind_of (column_texts timestamp body) in
  let k_te := kind_of (column_texts temple body) in
  let k_zo := kind_of (column_texts zone body) in
  let k_ts2 := kind_of (column_texts top_services body) in
  let k_pm := kind_of (column_texts payment_modes body) in
  map (fun r =>
         {| timestamp := read_as k_ts (cell_text (timestamp r));
            temple := read_as k_te (cell_text (temple r));
            zone := read_as k_zo (cell_text (zone r));
            visitor_count := visitor_count r;
            queue_time := queue_time r;
            top_services := read_as k_ts2 (cell_text (top_services r));
            payment_modes := read_as k_pm (cell_text (payment_modes r));
            crowd_index := crowd_index r;
            peak_hour_flag := peak_hour_flag r |}) body.

(** The persisted file: absent, present but rejected by [read_csv]
    (its raw lines, header included), or a CSV file with a header line
    and one line per row, the rows holding the text as written.  The
    app only writes the nine columns; a row is written as its nine
    fields. *)
Inductive FileState : Type :=
| Missing
| Corrupt (lines : list string)
| Csv (header : list string) (body : list Row).

(* -------------------- CSV TEXT -------------------- *)

(** The fields of a row as [to_csv] prints them. *)
Definition render_row (r : Row) : list string :=
  [cell_text (timestamp r); cell_text (temple r); cell_text (zone r);
   z_to_string (visitor_count r); z_to_string (queue_time r);
   cell_text (top_services r); cell_text (payment_modes r);
   z_to_string (crowd_index r); bool_to_string (peak_hour_flag r)].

Fixpoint has_special (s : string) : bool :=
  match s with
  | EmptyString => false
  | String c rest =>
      Ascii.eqb c comma_char || Ascii.eqb c dq_char || Ascii.eqb c lf_char
      || Ascii.eqb c cr_char || has_special rest
  end.

Fixpoint double_quotes (s : string) : string :=
  match s with
  | EmptyString => EmptyString
  | String c rest =>
      if Ascii.eqb c dq_char then String c (String c (double_quotes rest))
      else String c (double_quotes rest)
  end.

(** csv.QUOTE_MINIMAL *)
Definition csv_field (s : string) : string :=
  if has_special s then String dq_char (double_quotes s ++ String dq_char EmptyString)
  else s.

Definition csv_line (fields : list string) : string :=
  String.concat "," (map csv_field fields) ++ nl.

Fixpoint csv_text (lines : list (list string)) : string :=
  match lines with
  | [] => EmptyString
  | l :: ls => csv_line l ++ csv_text ls
  end.

(** [df.to_csv(index=False)] *)
Definition to_csv (fr : Frame) : string :=
  csv_text (columns fr :: map (fun r => render_row (write_row r)) (rows fr)).


(* -------------------- EFFECTS -------------------- *)

(** Python exceptions raised on the paths of the script. *)
Inductive exn : Type :=
| FileNotFoundError
| ParserError
| ValueError
| SMTPError (msg : string)
| RerunException.

Definition exn_str (e : exn) : string :=
  match e with
  | FileNotFoundError => "[Errno 2] No such file or directory: 'temple_pulse.csv'"
  | ParserError => "Error tokenizing data"
  | ValueError => "Length of values does not match length of index"
  | SMTPError m => m
  | RerunException => EmptyString
  end.

Inductive metric_value : Type :=
| MNum (v : option Q)      (* a float; None is nan *)
| MText (s : string).

(** The message [MIMEText] builds. *)
Record Message : Type := mkMessage {
  msg_subject : string;
  msg_from : string;
  msg_to : string;
  msg_body : string
}.

(** What one run of the script shows or does, in order. *)
Inductive event : Type :=
| SidebarTitle (s : string)
| Title (s : string)
| Subheader (s : string)
| Success (s : string)
| Warning (s : string)
| ErrorMsg (s : string)
| InfoMsg (s : string)
| Write (s : string)
| Markdown (s : string)
| Caption (s : string)
| Metric (label : string) (v : metric_value)
| BarChart (title : string) (bars : list (cell * Z))
| CircleMarker (lat lon : Q) (radius : Z) (popup : string)
| ShowMap
| ShowTable (rs : list Row)
| DownloadCsv (label : string) (data : string) (file_name : string)
| DownloadExcel (label : string) (sheet : Frame) (file_name : string)
| FitModel (features : list (Z * Z * Z))
| SmtpConnect (host : string) (port : Z)
| SmtpLogin (user password : string)
| SmtpSendmail (from_addr to_addr : string) (msg : Message)
| SmtpQuit.

Record AppState : Type := mkState {
  file : FileState;
  trace : list event
}.

Inductive result (A : Type) : Type :=
| Ok (a : A)
| Err (e : exn).
Arguments Ok {A} a.
Arguments Err {A} e.

(** State and exception monad: the file and the trace survive an
    exception, as they do in Python. *)
Definition M (A : Type) : Type := AppState -> result A * AppState.

Definition ret {A} (a : A) : M A := fun s => (Ok a, s).

Definition bind {A B} (m : M A) (k : A -> M B) : M B :=
  fun s => match m s with
           | (Ok a, s') => k a s'
           | (Err e, s') => (Err e, s')
           end.

Definition raise {A} (e : exn) : M A := fun s => (Err e, s).

(** [try: m  except Exception as e: h(e)] *)
Definition try_except {A} (m : M A) (h : exn -> M A) : M A :=
  fun s => match m s with
           | (Err e, s') => h e s'
           | r => r
           end.

(** [try: m  finally: f] *)
Definition try_finally {A} (m : M A) (f : M unit) : M A :=
  fun s => match m s with
           | (r, s') => match f s' with
                        | (Ok _, s'') => (r, s'')
                        | (Err e, s'') => (Err e, s'')
                        end
           end.

Notation "x <- m1 ;; m2" := (bind m1 (fun x => m2))
  (at level 61, m1 at next level, right associativity).
Notation "m1 ;; m2" := (bind m1 (fun _ => m2))
  (at level 61, right associativity).

Definition emit (ev : event) : M unit :=
  fun s => (Ok tt, {| file := file s; trace := trace s ++ [ev] |}).

Fixpoint emit_all (evs : list event) : M unit :=
  match evs with
  | [] => ret tt
  | ev :: evs' => emit ev ;; emit_all evs'
  end.

Definition get_file : M FileState := fun s => (Ok (file s), s).

Definition put_file (f : FileState) : M unit :=
  fun s => (Ok tt, {| file := f; trace := trace s |}).

(* -------------------- DATA INIT -------------------- *)

Definition empty_frame : Frame := mkFrame COLUMNS [].

(** [pd.read_csv(DATA_FILE)] *)
Definition read_csv (f : FileState) : result Frame :=
  match f with
  | Missing => Err FileNotFoundError
  | Corrupt _ => Err ParserError
  | Csv hdr body => Ok (mkFrame hdr (read_rows body))
  end.

Definition read_csv_m : M Frame := fun s => (read_csv (file s), s).

(** [load_data], for any reader in place of [pd.read_csv]: the bare
    [except:] catches every exception. *)
Definition load_data_with (reader : M Frame) : M Frame :=
  try_except reader (fun _ => ret empty_frame).

Definition load_data : M Frame := load_data_with read_csv_m.

(** [save_data(df)]: [df.to_csv(DATA_FILE, index=False)] *)
Definition save_data (df : Frame) : M unit :=
  put_file (Csv (columns df) (map write_row (rows df))).

(* -------------------- ALERT FUNCTION -------------------- *)

(** How each SMTP step of one [send_alert_email] call ends: [None]
    when it succeeds, [Some msg] when it raises. *)
Record smtp_run : Type := mkSmtpRun {
  on_connect : option string;
  on_login : option string;
  on_sendmail : option string;
  on_quit : option string
}.

Definition smtp_step (outcome : option string) (ev : event) : M unit :=
  emit ev ;;
  match outcome with
  | None => ret tt
  | Some m => raise (SMTPError m)
  end.

Definition sender : string := "nexaaudit-alert@example.com".
Definition password : string := "your-email-password".

(** [with smtplib.SMTP_SSL("smtp.gmail.com", 465) as server: ...]: the
    body runs once the connection is open, and [__exit__] sends QUIT
    whether the body raised or not. *)
Definition smtp_session (run : smtp_run) (msg : Message) : M unit :=
  smtp_step (on_connect run) (SmtpConnect "smtp.gmail.com" 465) ;;
  try_finally
    (smtp_step (on_login run) (SmtpLogin sender password) ;;
     smtp_step (on_sendmail run) (SmtpSendmail sender ALERT_EMAIL msg))
    (smtp_step (on_quit run) SmtpQuit).

Definition send_alert_email (run : smtp_run) (subject body : string) : M unit :=
  let recipient := ALERT_EMAIL in
  let msg := {| msg_subject := subject; msg_from := sender;
                msg_to := recipient; msg_body := body |} in
  try_except
    (smtp_session run msg ;;
     emit (Success "Alert dispatched to temple authorities."))
    (fun e => emit (ErrorMsg ("Failed to send alert: " ++ exn_str e))).

(* -------------------- PAGES -------------------- *)

Inductive Page : Type :=
| SubmitPulse
| TempleOverview
| CrowdAlerts
| PilgrimInfo
| ExportRecords
| RecentLogs.

(** The values the widgets of [pulse_form] return. *)
Record FormInput : Type := mkForm {
  f_temple : string;
  f_zone : string;
  f_visitor_count : Z;
  f_queue_time : Z;
  f_top_services : string;
  f_payment_modes : list string;
  f_crowd_index : Z;
  f_peak_hour_flag : bool
}.

(** Everything a run reads besides the file: widget values, the clock,
    the random source of numpy, the (random) IsolationForest labelling
    and the outcome of each SMTP call. *)
Record Inputs : Type := mkInputs {
  in_form : FormInput;
  in_submitted : bool;
  in_now : string;
  in_temple : string;
  in_export_format : string;
  in_rng : nat -> Q;
  in_fit_predict : list (Z * Z * Z) -> list Z;
  in_smtp : nat -> smtp_run
}.

(** [str] of a value inside an f-string: NaN prints as nan. *)
Definition py_str (c : cell) : string :=
  match c with NaN => "nan" | _ => cell_text c end.

(** Column labels of [pd.concat]: those of the first frame, then the
    new ones of the second. *)
Definition union_cols (a b : list string) : list string :=
  a ++ filter (fun c => negb (existsb (String.eqb c) a)) b.

Definition pd_concat (a b : Frame) : Frame :=
  mkFrame (union_cols (columns a) (columns b)) (rows a ++ rows b).

(** [new_entry] of the submission form. *)
Definition new_entry (now : string) (fi : FormInput) : Row :=
  {| timestamp := Str now;
     temple := Str (f_temple fi);
     zone := Str (f_zone fi);
     visitor_count := f_visitor_count fi;
     queue_time := f_queue_time fi;
     top_services := Str (f_top_services fi);
     payment_modes := Str (String.concat "," (f_payment_modes fi));
     crowd_index := f_crowd_index fi;
     peak_hour_flag := f_peak_hour_flag fi |}.

(** PAGE 1: SUBMISSION FORM *)
Definition submit_page (i : Inputs) : M unit :=
  emit (Title "Submit Daily Temple Pulse") ;;
  if in_submitted i then
    data <- load_data ;;
    let new_df := mkFrame COLUMNS [new_entry (in_now i) (in_form i)] in
    let updated_data := pd_concat data new_df in
    save_data updated_data ;;
    emit (Success "Pulse submitted successfully.") ;;
    raise RerunException   (* st.experimental_rerun() *)
  else ret tt.

(** [data[data["temple"] == temple]] *)
Definition filter_temple (t : string) (rs : list Row) : list Row :=
  filter (fun r => cell_eqb (temple r) (Str t)) rs.

Definition sumZ (xs : list Z) : Z := fold_right Z.add 0 xs.

(** Round half to even of numpy's [rint]. *)
Definition round_half_even (y : Q) : Z :=
  let f := Qfloor y in
  let d := (y - inject_Z f)%Q in
  match Qcompare d (1 # 2) with
  | Lt => f
  | Gt => f + 1
  | Eq => if Z.even f then f else f + 1
  end.

Definition pow2 (e : Z) : Q := Qpower (inject_Z 2) e.

(** Rounding of a positive rational to the nearest binary64 number, ties
    to even: 53 significant bits, subnormal below 2^-1022.  [e0] is the
    exponent that leaves [x / 2^e0] within a factor of 4 of 2^52; [e1]
    corrects it so that [2^52 <= x / 2^e1 < 2^53].  (No overflow: the
    values of the app stay far below 2^1024.) *)
Definition fl_pos (x : Q) : Q :=
  let e0 := Z.log2 (Qnum x) - Z.log2 (Zpos (Qden x)) - 52 in
  let e1 := if Qle_bool (inject_Z (2 ^ 52)) (x / pow2 e0) then e0 else e0 - 1 in
  let e := Z.max e1 (-1074) in
  (inject_Z (round_half_even (x / pow2 e)) * pow2 e)%Q.

(** The binary64 value of a rational: the result of one float64
    operation whose exact result is [x]. *)
Definition fl (x : Q) : Q :=
  match Qnum x with
  | Z0 => 0%Q
  | Zpos _ => fl_pos x
  | Zneg _ => (- fl_pos (- x))%Q
  end.

(** [Series.mean()] of an int64 column: nan on an empty series; else
    the float64 sum divided by the count.  The sum is taken exact: the
    float64 sum of integers is exact while their magnitudes add up to
    less than 2^53, and the theorems about means assume that bound. *)
Definition mean (xs : list Z) : option Q :=
  match xs with
  | [] => None
  | _ => Some (fl (inject_Z (sumZ xs) / inject_Z (Z.of_nat (List.length xs))))
  end.

(** [round(x, 2)] on a numpy float64: [rint] of the rounded product
    [x * 100], then the rounded quotient by 100. *)
Definition round2 (x : Q) : Q := fl (inject_Z (round_half_even (fl (x * 100))) / 100)%Q.

Definition uniform (low high u : Q) : Q := (low + (high - low) * u)%Q.

(** The heatmap markers: two draws of the random source per row, from
    position [k] on. *)
Fixpoint heat_markers (rng : nat -> Q) (k : nat) (rs : list Row) : list event :=
  match rs with
  | [] => []
  | row :: rs' =>
      let lat := uniform 21 24 (rng k) in
      let lon := uniform 70 74 (rng (S k)) in
      CircleMarker lat lon (crowd_index row)
        (py_str (temple row) ++ " – " ++ py_str (zone row) ++ " ("
         ++ z_to_string (crowd_index row) ++ ")")
      :: heat_markers rng (S (S k)) rs'
  end.

(** PAGE 2: TEMPLE OVERVIEW *)
Definition overview_page (i : Inputs) : M unit :=
  emit (Title "Temple-Wise Crowd Overview") ;;
  data <- load_data ;;
  let filtered := filter_temple (in_temple i) (rows data) in
  emit (Metric "Average Crowd Index"
          (MNum (option_map round2 (mean (map crowd_index filtered))))) ;;
  emit (Metric "Average Queue Time"
          (MNum (option_map round2 (mean (map queue_time filtered))))) ;;
  emit (BarChart "Zone-Wise Visitor Count"
          (map (fun r => (zone r, visitor_count r)) filtered)) ;;
  emit (Subheader "Crowd Heatmap") ;;
  match filtered with
  | [] => ret tt
  | _ => emit_all (heat_markers (in_rng i) 0 filtered) ;; emit ShowMap
  end.

Definition alert_text (row : Row) : string :=
  "Alert: Unusual crowd at " ++ py_str (temple row) ++ " – " ++ py_str (zone row)
  ++ " | Index " ++ z_to_string (crowd_index row) ++ ", Queue "
  ++ z_to_string (queue_time row) ++ " mins".

Definition alert_subject (row : Row) : string :=
  "Temple Alert – " ++ py_str (temple row) ++ " Zone: " ++ py_str (zone row).

(** [for _, row in alerts.iterrows(): ...]; the [k]-th email sent in the
    run meets the SMTP outcome [smtp k]. *)
Fixpoint alert_loop (smtp : nat -> smtp_run) (k : nat) (alerts : list Row) : M unit :=
  match alerts with
  | [] => ret tt
  | row :: alerts' =>
      let alert_msg := alert_text row in
      emit (ErrorMsg alert_msg) ;;
      send_alert_email (smtp k) (alert_subject row) alert_msg ;;
      alert_loop smtp (S k) alerts'
  end.

(** [data[["visitor_count", "queue_time", "crowd_index"]]] *)
Definition features_of (rs : list Row) : list (Z * Z * Z) :=
  map (fun r => (visitor_count r, queue_time r, crowd_index r)) rs.

(** [data[data["anomaly"] == -1]] *)
Definition flagged (rs : list Row) (labels : list Z) : list Row :=
  map fst (filter (fun p => Z.eqb (snd p) (-1)) (combine rs labels)).

(** PAGE 3: CROWD ALERTS *)
Definition alerts_page (i : Inputs) : M unit :=
  emit (Title "Real-Time Crowd and Safety Alerts") ;;
  data <- load_data ;;
  if Nat.ltb (List.length (rows data)) 10 then
    emit (Warning "Insufficient data for anomaly detection.")
  else
    let features := features_of (rows data) in
    emit (FitModel features) ;;
    let labels := in_fit_predict i features in
    (* data["anomaly"] = ...: a column of another length is refused *)
    if negb (Nat.eqb (List.length labels) (List.length (rows data))) then raise ValueError
    else alert_loop (in_smtp i) 0 (flagged (rows data) labels).

Fixpoint string_ltb (a b : string) : bool :=
  match a, b with
  | EmptyString, EmptyString => false
  | EmptyString, String _ _ => true
  | String _ _, EmptyString => false
  | String x a', String y b' =>
      if Nat.ltb (nat_of_ascii x) (nat_of_ascii y) then true
      else if Nat.eqb (nat_of_ascii x) (nat_of_ascii y) then string_ltb a' b'
      else false
  end.

(** The order of values within one column: NaN below everything (so
    that a descending sort puts it last, as [nargsort] does), then
    booleans, numbers and strings.  A column holds one kind of value
    besides NaN, so the ranks only order NaN against the rest.  Two
    [Opaque] values are taken as equal. *)
Definition cell_rank (c : cell) : nat :=
  match c with
  | NaN => 0 | CBool _ => 1 | CInt _ | CFloat _ => 2 | Str _ => 3 | Opaque _ => 4
  end%nat.

Definition cell_ltb (a b : cell) : bool :=
  match a, b with
  | CBool x, CBool y => negb x && y
  | (CInt x | CFloat x), (CInt y | CFloat y) => Z.ltb x y
  | Str x, Str y => string_ltb x y
  | Opaque _, Opaque _ => false
  | _, _ => Nat.ltb (cell_rank a) (cell_rank b)
  end.

(** Insert [r] before the first row whose timestamp is not above its own. *)
Fixpoint insert_desc (r : Row) (rs : list Row) : list Row :=
  match rs with
  | [] => [r]
  | h :: t => if cell_ltb (timestamp r) (timestamp h) then h :: insert_desc r t
              else r :: h :: t
  end.

(** [sort_values("timestamp", ascending=False)]: newest first, missing
    timestamps last.  Among equal timestamps this gives file order, the
    order of a stable sort; pandas' default sort is not stable, so the
    theorems about it say nothing about the order of ties. *)
Definition sort_desc (rs : list Row) : list Row := fold_right insert_desc [] rs.

(** PAGE 4: PILGRIM INFO *)
Definition pilgrim_page (i : Inputs) : M unit :=
  emit (Title "Pilgrim Crowd Snapshot") ;;
  data <- load_data ;;
  match firstn 1 (sort_desc (filter_temple (in_temple i) (rows data))) with
  | [] => emit (InfoMsg "No recent data available for this temple.")
  | row :: _ =>
      emit (Metric "Crowd Index" (MText (z_to_string (crowd_index row)))) ;;
      emit (Metric "Queue Time" (MText (z_to_string (queue_time row) ++ " mins"))) ;;
      emit (Write ("Top Services: " ++ py_str (top_services row))) ;;
      emit (Write ("Payment Modes: " ++ py_str (payment_modes row))) ;;
      if peak_hour_flag row then emit (Warning "Peak hour detected – expect delays.")
      else ret tt
  end.

(** PAGE 5: EXPORT RECORDS *)
Definition export_page (i : Inputs) : M unit :=
  emit (Title "Export Temple Pulse Records") ;;
  data <- load_data ;;
  if String.eqb (in_export_format i) "CSV" then
    emit (DownloadCsv "Download CSV" (to_csv data) "temple_pulse.csv")
  else
    emit (DownloadExcel "Download Excel" data "temple_pulse.xlsx").

(** PAGE 6: RECENT LOGS *)
Definition recent_page (i : Inputs) : M unit :=
  emit (Title "Recent Pulse Logs") ;;
  data <- load_data ;;
  emit (ShowTable (firstn 20 (sort_desc (rows data)))).

Definition run_page (p : Page) (i : Inputs) : M unit :=
  match p with
  | SubmitPulse => submit_page i
  | TempleOverview => overview_page i
  | CrowdAlerts => alerts_page i
  | PilgrimInfo => pilgrim_page i
  | ExportRecords => export_page i
  | RecentLogs => recent_page i
  end.

(** One run of the script for the page chosen in the sidebar. *)
Definition run_script (p : Page) (i : Inputs) : M unit :=
  emit (SidebarTitle "Temple Navigation") ;;
  run_page p i ;;
  emit (Markdown "---") ;;
  emit (Caption "Built for Temple Governance • Privacy-Safe • Scalable • Open Source").

(** The state after one run. *)
Definition app_step (p : Page) (i : Inputs) (s : AppState) : AppState :=
  snd (run_script p i s).

(** Stores the app can reach from a missing file. *)
Inductive reachable : FileState -> Prop :=
| reach_init : reachable Missing
| reach_step : forall p i t f,
    reachable f -> reachable (file (app_step p i {| file := f; trace := t |})).

(* -------------------- OBSERVATIONS -------------------- *)

(** The table [load_data] returns for a file. *)
Definition load_frame (f : FileState) : Frame :=
  match read_csv f with
  | Ok fr => fr
  | Err _ => empty_frame
  end.

(** Rows a reader of the file sees: a file [read_csv] rejects still holds
    the data lines after its header. *)
Definition file_row_count (f : FileState) : nat :=
  match f with
  | Missing => 0
  | Corrupt lines => List.length lines - 1
  | Csv _ body => List.length body
  end.

Fixpoint fit_events (tr : list event) : list (list (Z * Z * Z)) :=
  match tr with
  | [] => []
  | FitModel fs :: tr' => fs :: fit_events tr'
  | _ :: tr' => fit_events tr'
  end.

(** Number of SMTP connections opened: one per email the run tries to send. *)
Fixpoint smtp_attempts (tr : list event) : nat :=
  match tr with
  | [] => O
  | SmtpConnect _ _ :: tr' => S (smtp_attempts tr')
  | _ :: tr' => smtp_attempts tr'
  end.

Fixpoint marker_coords (tr : list event) : list (Q * Q) :=
  match tr with
  | [] => []
  | CircleMarker lat lon _ _ :: tr' => (lat, lon) :: marker_coords tr'
  | _ :: tr' => marker_coords tr'
  end.

(** The exception [send_alert_email] ends up catching, if any: a failed
    connection; otherwise a failed QUIT in [__exit__] replaces what the
    body raised; otherwise a failed login or sendmail. *)
Definition reported_failure (run : smtp_run) : option string :=
  match on_connect run with
  | Some m => Some m
  | None =>
      match on_quit run with
      | Some m => Some m
      | None =>
          match on_login run with
          | Some m => Some m
          | None => on_sendmail run
          end
      end
  end.

(** The widgets of [pulse_form] return: an option of the selectbox, a
    number_input value with [min_value=0] (an int, since the minimum is
    an int), a slider value in [0, 10], and distinct multiselect
    options. *)
Definition widget_ok (fi : FormInput) : Prop :=
  In (f_temple fi) TEMPLES /\ 0 <= f_visitor_count fi /\ 0 <= f_queue_time fi
  /\ 0 <= f_crowd_index fi <= 10
  /\ incl (f_payment_modes fi) PAYMENT_OPTIONS /\ NoDup (f_payment_modes fi).

(** The PulseRecord schema of the spec. *)
Definition pulse_schema (r : Row) : Prop :=
  (exists t, temple r = Str t /\ In t TEMPLES)
  /\ 0 <= visitor_count r /\ 0 <= queue_time r /\ 0 <= crowd_index r <= 10
  /\ exists sel, incl sel PAYMENT_OPTIONS /\ NoDup sel
                 /\ payment_modes r = Str (String.concat "," sel).

Definition valid_rng (rng : nat -> Q) : Prop :=
  forall n, (0 <= rng n /\ rng n < 1)%Q.







(** The numeric fields and the flag of a row. *)
Definition row_numbers (r : Row) : Z * Z * Z * bool :=
  (visitor_count r, queue_time r, crowd_index r, peak_hour_flag r).



(* -------------------- SAMPLE RUNS -------------------- *)

Definition smtp_ok : smtp_run := mkSmtpRun None None None None.

(** A form filled in with the zone text NA. *)
Definition form_na : FormInput :=
  mkForm "Somnath" "NA" 120 15 "darshan" ["Cash"; "UPI"]%string 6 false.

Definition inputs_with (fi : FormInput) (t : string) (rng : nat -> Q)
    (fit : list (Z * Z * Z) -> list Z) : Inputs :=
  mkInputs fi true "2026-10-16 09:00:00" t "CSV" rng fit (fun _ => smtp_ok).

Definition flag_busy (fs : list (Z * Z * Z)) : list Z :=
  map (fun x => if Z.leb 9 (snd x) then -1 else 1) fs.

Definition inputs_na : Inputs := inputs_with form_na "Somnath" (fun _ => 0%Q) flag_busy.

Definition sample_row (t : string) (ci : Z) : Row :=
  {| timestamp := Str "2026-10-15 08:00:00"; temple := Str t; zone := Str "Entry Gate";
     visitor_count := 100; queue_time := 10; top_services := Str "darshan";
     payment_modes := Str "Cash"; crowd_index := ci; peak_hour_flag := false |}.

(** Three Somnath records with crowd index 1, 1, 2 and one Dwarka record. *)
Definition store_112 : FileState :=
  Csv COLUMNS [sample_row "Somnath" 1; sample_row "Dwarka" 9;
               sample_row "Somnath" 1; sample_row "Somnath" 2].




(** Every step of the SMTP exchange fails. *)
Definition smtp_down : smtp_run :=
  mkSmtpRun (Some "Connection refused"%string) (Some "auth"%string)
    (Some "send"%string) (Some "quit"%string).

Definition start (f : FileState) : AppState := {| file := f; trace := [] |}.




(** A file [read_csv] rejects, with eleven data lines. *)
Definition corrupt_busy : FileState :=
  Corrupt ("timestamp,temple,zone,visitor_count,queue_time,top_services,payment_modes,crowd_index,peak_hour_flag"%string
           :: app (repeat "2026-10-15 08:00:00,Somnath,Entry Gate,100,10,darshan,Cash,9,False"%string 10)
                  ["2026-10-15 09:00:00,Dwarka,Entry Gate,80,5,darshan,UPI,3,False,x"%string]).

(** A computation that never writes the file. *)
Definition keeps_file {A} (m : M A) : Prop := forall s, file (snd (m s)) = file s.

(** The last message [send_alert_email] shows for an SMTP outcome. *)
Definition alert_outcome (run : smtp_run) : event :=
  match reported_failure run with
  | Some m => ErrorMsg ("Failed to send alert: " ++ m)
  | None => Success "Alert dispatched to temple authorities."
  end.



(** Stores reached from a missing file when every submission's widgets
    return values they allow. *)
Inductive reachable_ok : FileState -> Prop :=
| ok_init : reachable_ok Missing
| ok_step : forall p i t f,
    reachable_ok f -> widget_ok (in_form i) ->
    reachable_ok (file (app_step p i {| file := f; trace := t |})).

(** The entry-time bounds of a row. *)
Definition stored_row_ok (r : Row) : Prop :=
  (exists t, temple r = Str t /\ In t TEMPLES)
  /\ 0 <= visitor_count r /\ 0 <= queue_time r /\ 0 <= crowd_index r <= 10.

Fixpoint sent_messages (tr : list event) : list Message :=
  match tr with
  | [] => []
  | SmtpSendmail _ _ m :: tr' => m :: sent_messages tr'
  | _ :: tr' => sent_messages tr'
  end.



(** A browser session: each interaction reruns the script for the page
    and widget values of that moment. *)
Definition run_session (ps : list (Page * Inputs)) (s : AppState) : AppState :=
  fold_left (fun st pi => app_step (fst pi) (snd pi) st) ps s.

(** The rows the submissions of a session build, in order. *)
Fixpoint submitted_entries (ps : list (Page * Inputs)) : list Row :=
  match ps with
  | [] => []
  | (SubmitPulse, i) :: ps' =>
      (if in_submitted i then [new_entry (in_now i) (in_form i)] else [])
      ++ submitted_entries ps'
  | _ :: ps' => submitted_entries ps'
  end.

(* ==================== PROOFS ==================== *)

(** ** Monad laws used below *)

Lemma bind_emit {B} (ev : event) (k : unit -> M B) s :
  bind (emit ev) k s = k tt {| file := file s; trace := trace s ++ [ev] |}.
Proof. reflexivity. Qed.

Lemma bind_ret {A B} (a : A) (k : A -> M B) s : bind (ret a) k s = k a s.
Proof. reflexivity. Qed.

Lemma load_data_eq s : load_data s = (Ok (load_frame (file s)), s).
Proof. unfold load_data, load_data_with, try_except, read_csv_m, load_frame.
  destruct (read_csv (file s)); reflexivity. Qed.

Lemma bind_load {B} (k : Frame -> M B) s :
  bind load_data k s = k (load_frame (file s)) s.
Proof. unfold bind at 1. rewrite load_data_eq. reflexivity. Qed.

Lemma bind_assoc {A B C} (m : M A) (k1 : A -> M B) (k2 : B -> M C) s :
  bind (bind m k1) k2 s = bind m (fun a => bind (k1 a) k2) s.
Proof. unfold bind. destruct (m s) as [[a|e] s']; reflexivity. Qed.

Lemma state_eta s : {| file := file s; trace := trace s |} = s.
Proof. destruct s; reflexivity. Qed.

(** ** Computations that leave the file alone *)

Create HintDb keeps.

Lemma keeps_ret {A} (a : A) : keeps_file (ret a).
Proof. intro s; reflexivity. Qed.

Lemma keeps_raise {A} e : keeps_file (@raise A e).
Proof. intro s; reflexivity. Qed.

Lemma keeps_emit ev : keeps_file (emit ev).
Proof. intro s; reflexivity. Qed.

Lemma keeps_bind {A B} (m : M A) (k : A -> M B) :
  keeps_file m -> (forall a, keeps_file (k a)) -> keeps_file (bind m k).
Proof.
  intros Hm Hk s. unfold bind. specialize (Hm s).
  destruct (m s) as [[a|e] s'] eqn:E; simpl in *; [rewrite Hk|]; assumption.
Qed.

Lemma keeps_try_except {A} (m : M A) (h : exn -> M A) :
  keeps_file m -> (forall e, keeps_file (h e)) -> keeps_file (try_except m h).
Proof.
  intros Hm Hh s. unfold try_except. specialize (Hm s).
  destruct (m s) as [[a|e] s'] eqn:E; simpl in *; [|rewrite Hh]; assumption.
Qed.

Lemma keeps_try_finally {A} (m : M A) (f : M unit) :
  keeps_file m -> keeps_file f -> keeps_file (try_finally m f).
Proof.
  intros Hm Hf s. unfold try_finally. specialize (Hm s).
  destruct (m s) as [r s'] eqn:E. specialize (Hf s').
  destruct (f s') as [[u|e] s''] eqn:F; simpl in *; congruence.
Qed.

Lemma keeps_emit_all evs : keeps_file (emit_all evs).
Proof.
  induction evs as [|ev evs IH]; simpl.
  - apply keeps_ret.
  - apply keeps_bind; [apply keeps_emit | intros; exact IH].
Qed.

Lemma keeps_load_data : keeps_file load_data.
Proof. intro s. rewrite load_data_eq. reflexivity. Qed.

Lemma keeps_read_csv_m : keeps_file read_csv_m.
Proof. intro s. reflexivity. Qed.

#[local] Hint Resolve keeps_ret keeps_raise keeps_emit keeps_emit_all keeps_load_data
  keeps_read_csv_m : keeps.

Ltac keeps_tac :=
  repeat first
    [ apply keeps_bind; [| intro]
    | apply keeps_try_except; [| intro]
    | apply keeps_try_finally
    | progress (auto with keeps)
    | match goal with
      | |- keeps_file (if ?b then _ else _) => destruct b
      | |- keeps_file (match ?x with _ => _ end) => destruct x
      end ].

Lemma keeps_smtp_step o ev : keeps_file (smtp_step o ev).
Proof. unfold smtp_step. keeps_tac. Qed.

#[local] Hint Resolve keeps_smtp_step : keeps.

Lemma keeps_send_alert_email run subject body :
  keeps_file (send_alert_email run subject body).
Proof. unfold send_alert_email, smtp_session. keeps_tac. Qed.

#[local] Hint Resolve keeps_send_alert_email : keeps.

Lemma keeps_alert_loop smtp k alerts : keeps_file (alert_loop smtp k alerts).
Proof.
  revert k. induction alerts as [|row alerts IH]; intro k; simpl; keeps_tac.
Qed.

#[local] Hint Resolve keeps_alert_loop : keeps.

Lemma keeps_other_pages p i : p <> SubmitPulse -> keeps_file (run_page p i).
Proof.
  intro Hp. destruct p; [congruence| | | | |]; simpl;
    unfold overview_page, alerts_page, pilgrim_page, export_page, recent_page;
    keeps_tac.
Qed.

(** ** The submission step *)

(** ** Reading columns back *)

Lemma read_rows_length body : List.length (read_rows body) = List.length body.
Proof. unfold read_rows. apply length_map. Qed.

Lemma read_rows_app_length a b :
  List.length (read_rows (a ++ b)) = (List.length a + List.length b)%nat.
Proof. rewrite read_rows_length, length_app. reflexivity. Qed.

Lemma read_rows_numbers body : map row_numbers (read_rows body) = map row_numbers body.
Proof. unfold read_rows. rewrite map_map. reflexivity. Qed.

Lemma write_rows_numbers rs : map row_numbers (map write_row rs) = map row_numbers rs.
Proof. rewrite map_map. reflexivity. Qed.




Lemma read_as_na k t : is_na t = true -> read_as k t = NaN.
Proof. intro H. unfold read_as. rewrite H. reflexivity. Qed.

Lemma is_na_empty : is_na EmptyString = true.
Proof. reflexivity. Qed.


Lemma non_numeric_not_int t : non_numeric t = true -> is_int_lit t = false.
Proof. intro H. unfold is_int_lit. rewrite H. reflexivity. Qed.

Lemma non_numeric_not_intfloat t : non_numeric t = true -> is_intfloat_lit t = false.
Proof. intro H. unfold is_intfloat_lit. rewrite H. reflexivity. Qed.

(** A column is read as text when, among its non-missing cells, one has
    a character no number has and one is not a boolean literal. *)
Lemma kind_of_text ts t0 t1 :
  In t0 ts -> is_na t0 = false -> non_numeric t0 = true ->
  In t1 ts -> is_na t1 = false -> is_bool_lit t1 = false ->
  kind_of ts = KText.
Proof.
  intros I0 N0 X0 I1 N1 B1. unfold kind_of.
  assert (J0 : In t0 (filter (fun t => negb (is_na t)) ts))
    by (apply filter_In; rewrite N0; auto).
  assert (J1 : In t1 (filter (fun t => negb (is_na t)) ts))
    by (apply filter_In; rewrite N1; auto).
  destruct (filter (fun t => negb (is_na t)) ts) as [|v vs] eqn:F; [contradiction|].
  rewrite <- F in *.
  destruct (forallb is_int_lit _) eqn:A1.
  { rewrite forallb_forall in A1. specialize (A1 _ J0).
    rewrite non_numeric_not_int in A1 by exact X0. discriminate. }
  destruct (forallb (fun t => is_int_lit t || is_intfloat_lit t) _) eqn:A2.
  { rewrite forallb_forall in A2. specialize (A2 _ J0).
    rewrite non_numeric_not_int, non_numeric_not_intfloat in A2 by exact X0.
    discriminate. }
  destruct (forallb is_bool_lit _) eqn:A3.
  { rewrite forallb_forall in A3. specialize (A3 _ J1). congruence. }
  assert (A4 : existsb non_numeric (filter (fun t => negb (is_na t)) ts) = true)
    by (apply existsb_exists; eauto).
  rewrite A4. reflexivity.
Qed.






Lemma submit_step i s :
  in_submitted i = true ->
  app_step SubmitPulse i s =
  {| file := Csv (union_cols (columns (load_frame (file s))) COLUMNS)
                 (map write_row (rows (load_frame (file s))
                                 ++ [new_entry (in_now i) (in_form i)]));
     trace := trace s ++ [SidebarTitle "Temple Navigation";
                          Title "Submit Daily Temple Pulse";
                          Success "Pulse submitted successfully."] |}.
Proof.
  intro H. unfold app_step, run_script, run_page, submit_page. rewrite H.
  destruct s as [[|lines|hdr body] tr]; simpl; rewrite <- !app_assoc; reflexivity.
Qed.

Lemma submit_not_submitted i s :
  in_submitted i = false -> file (app_step SubmitPulse i s) = file s.
Proof.
  intro H. unfold app_step, run_script, run_page, submit_page. rewrite H.
  destruct s; reflexivity.
Qed.




(** ** Computations that only append to the trace *)

Definition extends_trace {A} (m : M A) : Prop :=
  forall s, exists tr, trace (snd (m s)) = trace s ++ tr.

Create HintDb extends.

Lemma ext_ret {A} (a : A) : extends_trace (ret a).
Proof. intro s. exists []. rewrite app_nil_r. reflexivity. Qed.

Lemma ext_raise {A} e : extends_trace (@raise A e).
Proof. intro s. exists []. rewrite app_nil_r. reflexivity. Qed.

Lemma ext_emit ev : extends_trace (emit ev).
Proof. intro s. exists [ev]. reflexivity. Qed.

Lemma ext_bind {A B} (m : M A) (k : A -> M B) :
  extends_trace m -> (forall a, extends_trace (k a)) -> extends_trace (bind m k).
Proof.
  intros Hm Hk s. unfold bind. destruct (Hm s) as [tr1 E1].
  destruct (m s) as [[a|e] s'] eqn:E; simpl in *.
  - destruct (Hk a s') as [tr2 E2]. exists (tr1 ++ tr2).
    rewrite E2, E1, app_assoc. reflexivity.
  - exists tr1. exact E1.
Qed.



Lemma ext_emit_all evs : extends_trace (emit_all evs).
Proof.
  induction evs as [|ev evs IH]; simpl.
  - apply ext_ret.
  - apply ext_bind; [apply ext_emit | intros; exact IH].
Qed.

Lemma ext_load_data : extends_trace load_data.
Proof. intro s. exists []. rewrite load_data_eq, app_nil_r. reflexivity. Qed.

Lemma ext_read_csv_m : extends_trace read_csv_m.
Proof. intro s. exists []. rewrite app_nil_r. reflexivity. Qed.

#[local] Hint Resolve ext_ret ext_raise ext_emit ext_emit_all ext_load_data
  ext_read_csv_m : extends.


(** Runs a computation through its leading [emit]s and [load_data]. *)
Ltac run_steps :=
  repeat (first [ rewrite bind_assoc | rewrite bind_emit | rewrite bind_load
                | rewrite bind_ret ]; cbv beta).

(** ** Rounding *)







Lemma pow2_le a b : a <= b -> (pow2 a <= pow2 b)%Q.
Proof. intro H. apply Qpower_le_compat_l; [exact H|]. unfold Qle; simpl; lia. Qed.








(** ** C2: the Temple Overview metrics *)





(** ** Sending alerts *)

Lemma smtp_attempts_app a b : smtp_attempts (a ++ b) = (smtp_attempts a + smtp_attempts b)%nat.
Proof. induction a as [|ev a IH]; [reflexivity|]. destruct ev; simpl; rewrite ?IH; reflexivity. Qed.

Lemma fit_events_app a b : fit_events (a ++ b) = fit_events a ++ fit_events b.
Proof. induction a as [|ev a IH]; [reflexivity|]. destruct ev; simpl; rewrite ?IH; reflexivity. Qed.

(** One call: no exception escapes, the file is untouched, one SMTP
    connection is tried, and the last message reports the outcome. *)
Lemma send_alert_email_spec run subject body s :
  fst (send_alert_email run subject body s) = Ok tt
  /\ file (snd (send_alert_email run subject body s)) = file s
  /\ exists tr, trace (snd (send_alert_email run subject body s)) = trace s ++ tr
                /\ smtp_attempts tr = 1%nat /\ fit_events tr = []
                /\ last tr (Markdown "---") = alert_outcome run.
Proof.
  destruct run as [c l m q]; destruct s as [f t].
  unfold alert_outcome, reported_failure.
  destruct c, l, m, q; cbn.
  all: split; [reflexivity|]; split; [reflexivity|].
  all: rewrite <- !app_assoc; eexists; split; [reflexivity|].
  all: simpl; split; [reflexivity | split; reflexivity].
Qed.

(** The alert loop: no exception escapes and one email is tried per
    alert, whatever each SMTP call does. *)
Lemma alert_loop_spec smtp k alerts s :
  exists tr, alert_loop smtp k alerts s = (Ok tt, {| file := file s; trace := trace s ++ tr |})
             /\ smtp_attempts tr = List.length alerts /\ fit_events tr = [].
Proof.
  revert k s. induction alerts as [|row alerts IH]; intros k s.
  - exists []. rewrite app_nil_r. destruct s; split; [reflexivity | split; reflexivity].
  - simpl alert_loop. rewrite bind_emit.
    set (s1 := {| file := file s; trace := trace s ++ [ErrorMsg (alert_text row)] |}).
    destruct (send_alert_email_spec (smtp k) (alert_subject row) (alert_text row) s1)
      as [Hr [Hf [tr1 [Ht [Ha [Hfit _]]]]]].
    unfold bind at 1.
    destruct (send_alert_email (smtp k) (alert_subject row) (alert_text row) s1)
      as [r s2] eqn:E. simpl in Hr, Hf, Ht. subst r.
    destruct (IH (S k) s2) as [tr2 [E2 [Ha2 Hfit2]]].
    rewrite E2. exists (ErrorMsg (alert_text row) :: tr1 ++ tr2).
    rewrite Hf, Ht. simpl. split; [rewrite <- !app_assoc; reflexivity|].
    rewrite smtp_attempts_app, fit_events_app, Ha, Ha2, Hfit, Hfit2. split; reflexivity.
Qed.


(** ** The Crowd Alerts page *)

Lemma alerts_page_small i s :
  (List.length (rows (load_frame (file s))) < 10)%nat ->
  run_page CrowdAlerts i s
  = (Ok tt, {| file := file s;
               trace := trace s ++ [Title "Real-Time Crowd and Safety Alerts";
                                    Warning "Insufficient data for anomaly detection."] |}).
Proof.
  intro H. simpl run_page. unfold alerts_page. run_steps. cbn [file trace].
  apply Nat.ltb_lt in H. rewrite H. unfold emit. cbn [file trace].
  rewrite <- app_assoc. reflexivity.
Qed.

Lemma alerts_page_large i s :
  let R := rows (load_frame (file s)) in
  (10 <= List.length R)%nat ->
  exists tr,
    trace (snd (run_page CrowdAlerts i s))
      = trace s ++ Title "Real-Time Crowd and Safety Alerts" :: FitModel (features_of R) :: tr
    /\ file (snd (run_page CrowdAlerts i s)) = file s
    /\ fit_events tr = []
    /\ (List.length (in_fit_predict i (features_of R)) = List.length R ->
        fst (run_page CrowdAlerts i s) = Ok tt
        /\ smtp_attempts tr = List.length (flagged R (in_fit_predict i (features_of R)))).
Proof.
  intros R H. simpl run_page. unfold alerts_page. run_steps. cbn [file trace].
  fold R. apply Nat.ltb_ge in H. rewrite H. cbv beta iota. rewrite bind_emit.
  cbn [file trace].
  destruct (Nat.eqb (List.length (in_fit_predict i (features_of R))) (List.length R)) eqn:E;
    cbn [negb].
  - destruct (alert_loop_spec (in_smtp i) 0 (flagged R (in_fit_predict i (features_of R)))
       {| file := file s;
          trace := (trace s ++ [Title "Real-Time Crowd and Safety Alerts"])
                   ++ [FitModel (features_of R)] |}) as [tr [E1 [Ha Hf]]].
    rewrite E1. exists tr. cbn [fst snd file trace].
    rewrite <- !app_assoc. split; [reflexivity|]. split; [reflexivity|].
    split; [exact Hf|]. intros _. split; [reflexivity | exact Ha].
  - exists []. cbn. rewrite <- !app_assoc. split; [reflexivity|].
    split; [reflexivity|]. split; [reflexivity|].
    intro L. apply Nat.eqb_eq in L. congruence.
Qed.




(** C9.  [send_alert_email] never lets an exception out: whatever each
    SMTP step does, the call returns normally, reports a failure on the
    page, and the alert loop goes on to try one email per flagged row. *)
Theorem send_alert_email_never_raises :
  (forall run subject body s,
     fst (send_alert_email run subject body s) = Ok tt
     /\ exists tr, trace (snd (send_alert_email run subject body s)) = trace s ++ tr
                   /\ last tr (Markdown "---") = alert_outcome run)
  /\ (forall run, reported_failure run <> None ->
        exists m, alert_outcome run = ErrorMsg ("Failed to send alert: " ++ m))
  /\ (forall smtp k alerts s,
        exists tr, alert_loop smtp k alerts s = (Ok tt, {| file := file s; trace := trace s ++ tr |})
                   /\ smtp_attempts tr = List.length alerts).
Proof.
  split; [|split].
  - intros run subject body s.
    destruct (send_alert_email_spec run subject body s) as [Hr [_ [tr [Ht [_ [_ Hl]]]]]].
    split; [exact Hr|]. exists tr. split; assumption.
  - intros run H. unfold alert_outcome. destruct (reported_failure run) as [m|];
      [exists m; reflexivity | congruence].
  - intros smtp k alerts s. destruct (alert_loop_spec smtp k alerts s) as [tr [E [Ha _]]].
    exists tr. split; assumption.
Qed.

Lemma send_alert_email_never_raises_witness :
  exists m, alert_outcome smtp_down = ErrorMsg ("Failed to send alert: " ++ m).
Proof.
  destruct send_alert_email_never_raises as [_ [H _]].
  apply H. discriminate.
Defined.

(** C10 (as amended).  When [load_data] returns fewer than 10 rows the
    page only warns: no model, no email; the model is fit exactly when
    [load_data] returns at least 10 rows (a file [read_csv] rejects
    counts as none, whatever its number of lines). *)
Theorem alerts_guard_below_ten i s :
  let R := rows (load_frame (file s)) in
  ((List.length R < 10)%nat ->
     run_page CrowdAlerts i s
     = (Ok tt, {| file := file s;
                  trace := trace s ++ [Title "Real-Time Crowd and Safety Alerts";
                                       Warning "Insufficient data for anomaly detection."] |}))
  /\ exists tr, trace (snd (run_page CrowdAlerts i s)) = trace s ++ tr
                /\ (fit_events tr <> [] <-> (10 <= List.length R)%nat).
Proof.
  intro R. split; [apply alerts_page_small|].
  destruct (Nat.lt_ge_cases (List.length R) 10) as [H|H].
  - rewrite (alerts_page_small i s H). eexists. split; [reflexivity|].
    simpl. split; [congruence | lia].
  - destruct (alerts_page_large i s H) as [tr [Ht [_ [Hfe _]]]].
    eexists. split; [exact Ht|]. simpl. rewrite Hfe. split; [intros _; exact H | discriminate].
Qed.

Lemma alerts_guard_below_ten_witness :
  run_page CrowdAlerts inputs_na (start store_112)
  = (Ok tt, {| file := store_112;
               trace := [Title "Real-Time Crowd and Safety Alerts";
                         Warning "Insufficient data for anomaly detection."] |}).
Proof.
  destruct (alerts_guard_below_ten inputs_na (start store_112)) as [H _].
  apply H. vm_compute. lia.
Defined.

(** C10 fails as stated: a file with eleven data lines that [read_csv]
    rejects reads as empty, so the page only warns and fits no model. *)
Lemma alerts_corrupt_busy_counterexample :
  (10 <= file_row_count corrupt_busy)%nat
  /\ fit_events (trace (app_step CrowdAlerts inputs_na (start corrupt_busy))) = []
  /\ nth 2 (trace (app_step CrowdAlerts inputs_na (start corrupt_busy))) (Markdown "---")
     = Warning "Insufficient data for anomaly detection.".
Proof. vm_compute. split; [lia|]. split; reflexivity. Qed.

(** ** Which runs write the store *)

Lemma Page_eq_submit (p : Page) : p = SubmitPulse \/ p <> SubmitPulse.
Proof. destruct p; (left; reflexivity) || (right; discriminate). Qed.

Lemma keeps_run_script p i : p <> SubmitPulse -> keeps_file (run_script p i).
Proof.
  intro Hp. unfold run_script.
  apply keeps_bind; [apply keeps_emit| intros _].
  apply keeps_bind; [apply keeps_other_pages; exact Hp| intros _].
  apply keeps_bind; [apply keeps_emit| intros _]. apply keeps_emit.
Qed.

Lemma app_step_keeps p i s : p <> SubmitPulse -> file (app_step p i s) = file s.
Proof. intro Hp. exact (keeps_run_script p i Hp s). Qed.





(** ** C5: the record a submission appends *)

Lemma write_row_new_entry now fi : write_row (new_entry now fi) = new_entry now fi.
Proof. reflexivity. Qed.

(** C5.  The row a submission appends satisfies the PulseRecord schema
    whenever the widgets return what they allow. *)
Theorem submitted_record_schema i s :
  widget_ok (in_form i) -> in_submitted i = true ->
  exists hdr body r,
    file (app_step SubmitPulse i s) = Csv hdr (body ++ [r])
    /\ r = new_entry (in_now i) (in_form i)
    /\ pulse_schema r.
Proof.
  intros [Ht [Hv [Hq [Hc [Hp Hn]]]]] Hs. rewrite (submit_step i s Hs). cbn [file].
  eexists _, _, _. split; [rewrite map_app; reflexivity|]. split; [reflexivity|].
  unfold pulse_schema, new_entry; simpl.
  split; [exists (f_temple (in_form i)); split; [reflexivity | exact Ht]|].
  split; [exact Hv|]. split; [exact Hq|]. split; [exact Hc|].
  exists (f_payment_modes (in_form i)). split; [exact Hp|]. split; [exact Hn | reflexivity].
Qed.

Lemma submitted_record_schema_witness :
  exists hdr body r,
    file (app_step SubmitPulse inputs_na (start store_112)) = Csv hdr (body ++ [r])
    /\ r = new_entry (in_now inputs_na) (in_form inputs_na)
    /\ pulse_schema r.
Proof.
  apply submitted_record_schema; [|reflexivity].
  unfold widget_ok; simpl. split; [left; reflexivity|].
  split; [lia|]. split; [lia|]. split; [lia|]. split.
  - intros x [<-|[<-|[]]]; simpl; auto.
  - constructor; [simpl; intros [H|[]]; discriminate|].
    constructor; [simpl; tauto | constructor].
Defined.

(** ** C6: the CSV export *)




(** ** C7: the heatmap markers *)

Lemma emit_all_eq evs s :
  emit_all evs s = (Ok tt, {| file := file s; trace := trace s ++ evs |}).
Proof.
  revert s. induction evs as [|ev evs IH]; intro s; simpl.
  - rewrite app_nil_r. destruct s; reflexivity.
  - rewrite bind_emit, IH. simpl. rewrite <- app_assoc. reflexivity.
Qed.

Lemma marker_coords_app a b : marker_coords (a ++ b) = marker_coords a ++ marker_coords b.
Proof. induction a as [|ev a IH]; [reflexivity|]. destruct ev; simpl; rewrite ?IH; reflexivity. Qed.

Lemma overview_marker_coords i f :
  marker_coords (trace (app_step TempleOverview i (start f)))
  = marker_coords (heat_markers (in_rng i) 0 (filter_temple (in_temple i) (rows (load_frame f)))).
Proof.
  unfold app_step, run_script, run_page, overview_page, start. run_steps. cbn [file trace].
  destruct (filter_temple (in_temple i) (rows (load_frame f))) as [|r rs] eqn:E.
  - unfold bind, ret, emit. simpl. reflexivity.
  - rewrite bind_assoc. unfold bind at 1. rewrite emit_all_eq. cbv beta iota.
    run_steps. unfold emit. cbn [file trace snd].
    rewrite <- E, !marker_coords_app. simpl. rewrite !app_nil_r. reflexivity.
Qed.

Lemma heat_markers_in_range rng k rs :
  valid_rng rng ->
  forall lat lon, In (lat, lon) (marker_coords (heat_markers rng k rs)) ->
  (21 <= lat <= 24 /\ 70 <= lon <= 74)%Q.
Proof.
  intro Hv. revert k. induction rs as [|r rs IH]; intros k lat lon H; simpl in H; [contradiction|].
  destruct H as [H|H]; [|exact (IH _ _ _ H)].
  injection H as <- <-. unfold uniform.
  destruct (Hv k) as [L1 U1]. destruct (Hv (S k)) as [L2 U2]. split; lra.
Qed.

Lemma heat_markers_coords_length rng k rs1 rs2 :
  List.length rs1 = List.length rs2 ->
  marker_coords (heat_markers rng k rs1) = marker_coords (heat_markers rng k rs2).
Proof.
  revert k rs2. induction rs1 as [|r1 rs1 IH]; intros k [|r2 rs2] H; simpl in *;
    try discriminate; [reflexivity|].
  f_equal. apply IH. lia.
Qed.

(** C7.  Every marker lies in [21, 24] x [70, 74]; the coordinates come
    from the random source alone: two stores with as many records of
    the selected temple get the same coordinates from the same draws,
    and two runs over one store can place its records differently. *)
Theorem heatmap_coordinates_random i f1 f2 :
  valid_rng (in_rng i) ->
  let F1 := filter_temple (in_temple i) (rows (load_frame f1)) in
  let F2 := filter_temple (in_temple i) (rows (load_frame f2)) in
  (forall lat lon, In (lat, lon) (marker_coords (trace (app_step TempleOverview i (start f1)))) ->
     (21 <= lat <= 24 /\ 70 <= lon <= 74)%Q)
  /\ (List.length F1 = List.length F2 ->
        marker_coords (trace (app_step TempleOverview i (start f1)))
        = marker_coords (trace (app_step TempleOverview i (start f2))))
  /\ (exists rng1 rng2, valid_rng rng1 /\ valid_rng rng2
        /\ marker_coords (trace (app_step TempleOverview
                                   (inputs_with form_na "Somnath" rng1 flag_busy) (start store_112)))
           <> marker_coords (trace (app_step TempleOverview
                                   (inputs_with form_na "Somnath" rng2 flag_busy) (start store_112)))).
Proof.
  intros Hv F1 F2. split; [|split].
  - rewrite overview_marker_coords. apply heat_markers_in_range. exact Hv.
  - intro L. rewrite !overview_marker_coords. apply heat_markers_coords_length. exact L.
  - exists (fun _ => 0%Q), (fun _ => 1 # 2).
    split; [intro n; split; [apply Qle_refl | reflexivity]|].
    split; [intro n; unfold Qle, Qlt; simpl; lia|].
    rewrite !overview_marker_coords. vm_compute. intro H. discriminate H.
Qed.

Lemma heatmap_coordinates_random_witness :
  Forall (fun p => (21 <= fst p <= 24 /\ 70 <= snd p <= 74)%Q)
    (marker_coords (trace (app_step TempleOverview inputs_na (start store_112)))).
Proof.
  assert (Hv : valid_rng (in_rng inputs_na)) by (intro n; split; [apply Qle_refl | reflexivity]).
  destruct (heatmap_coordinates_random inputs_na store_112 store_112 Hv) as [H _].
  apply Forall_forall. intros [lat lon] Hin. exact (H lat lon Hin).
Defined.

(** ** C8: [load_data] *)

(** C8.  Whatever [read_csv] does, [load_data] returns a table: on any
    exception, the empty table with the nine columns. *)
Theorem load_data_total :
  (forall (reader : M Frame) s, exists fr s', load_data_with reader s = (Ok fr, s'))
  /\ (forall (reader : M Frame) s e s',
        reader s = (Err e, s') -> load_data_with reader s = (Ok empty_frame, s'))
  /\ columns empty_frame
     = ["timestamp"; "temple"; "zone"; "visitor_count"; "queue_time";
        "top_services"; "payment_modes"; "crowd_index"; "peak_hour_flag"]%string
  /\ rows empty_frame = []
  /\ (forall s, load_data s = (Ok (load_frame (file s)), s)).
Proof.
  split; [|split; [|split; [|split]]].
  - intros reader s. unfold load_data_with, try_except.
    destruct (reader s) as [[fr|e] s'].
    + exists fr, s'. reflexivity.
    + exists empty_frame, s'. reflexivity.
  - intros reader s e s' H. unfold load_data_with, try_except. rewrite H. reflexivity.
  - reflexivity.
  - reflexivity.
  - exact load_data_eq.
Qed.

Lemma load_data_total_witness :
  load_data_with (fun s => (Err ParserError, s)) (start Missing)
  = (Ok empty_frame, start Missing).
Proof.
  destruct load_data_total as [_ [H _]].
  apply (H (fun s => (Err ParserError, s)) (start Missing) ParserError). reflexivity.
Defined.

(** ** The timestamp order of Pilgrim Info and Recent Logs *)



















(** ** Printing a column and reading it back *)

Lemma existsb_eqb_In c a : existsb (String.eqb c) a = true <-> In c a.
Proof.
  rewrite existsb_exists. split.
  - intros [x [Hx E]]. apply String.eqb_eq in E. subst. exact Hx.
  - intro H. exists c. split; [exact H | apply String.eqb_refl].
Qed.





















(** ** Saving and loading *)






(** Every store the app reaches is missing or a CSV file with exactly
    the nine columns, so [load_data] always returns those columns. *)
Theorem reachable_header_columns f :
  reachable f ->
  (f = Missing \/ exists body, f = Csv COLUMNS body)
  /\ columns (load_frame f) = COLUMNS.
Proof.
  induction 1 as [|p i t f Hr [IH1 IH2]]; [split; [left|]; reflexivity|].
  destruct (Page_eq_submit p) as [->|Hp].
  - destruct (in_submitted i) eqn:E.
    + rewrite (submit_step i _ E). cbn [file]. rewrite IH2.
      split; [right; eexists; reflexivity | reflexivity].
    + rewrite (submit_not_submitted i _ E). split; assumption.
  - rewrite (app_step_keeps p i _ Hp). split; assumption.
Qed.

Lemma reachable_header_columns_witness :
  columns (load_frame (file (app_step SubmitPulse inputs_na (start Missing)))) = COLUMNS.
Proof.
  apply (reachable_header_columns _ (reach_step SubmitPulse inputs_na [] Missing reach_init)).
Defined.

Lemma temple_text t :
  In t TEMPLES -> is_na t = false /\ non_numeric t = true /\ is_bool_lit t = false.
Proof. intros [<-|[<-|[<-|[<-|[]]]]]; (split; [reflexivity|split; reflexivity]). Qed.

(** Stored rows naming one of the four temples are read back with that
    temple: the temple column is then a string column. *)
Lemma stored_rows_ok_read body :
  (forall r, In r body -> stored_row_ok r) -> forall r, In r (read_rows body) -> stored_row_ok r.
Proof.
  intros H r Hr. unfold read_rows in Hr. apply in_map_iff in Hr. destruct Hr as [r0 [<- Hr0]].
  destruct (H r0 Hr0) as [[t [Ht Hin]] Hb]. destruct (temple_text t Hin) as [N [X B]].
  assert (Hc : In t (column_texts temple body))
    by (apply in_map_iff; exists r0; rewrite Ht; split; [reflexivity | exact Hr0]).
  assert (Hk : kind_of (column_texts temple body) = KText) by exact (kind_of_text _ t t Hc N X Hc N B).
  split; [|exact Hb]. exists t. split; [|exact Hin]. cbn [temple].
  rewrite Hk, Ht. unfold read_as. cbn [cell_text]. rewrite N. reflexivity.
Qed.

Lemma stored_row_ok_write r : stored_row_ok r -> stored_row_ok (write_row r).
Proof.
  intros [[t [Ht Hin]] Hb]. split; [|exact Hb].
  exists t. split; [|exact Hin]. unfold write_row, map_cells. simpl. rewrite Ht. reflexivity.
Qed.

(** The entry-time ranges hold at rest for data the app writes: when
    every submission's widgets return values they allow, every stored
    row, and every row [load_data] returns, has one of the four temples,
    non-negative counts and a crowd index in [0, 10]. *)
Theorem entry_bounds_hold_at_rest f :
  reachable_ok f ->
  (forall hdr body, f = Csv hdr body -> forall r, In r body -> stored_row_ok r)
  /\ (forall r, In r (rows (load_frame f)) -> stored_row_ok r).
Proof.
  induction 1 as [|p i t f Hr [IH1 IH2] Hw].
  - split; [discriminate | simpl; tauto].
  - assert (Hload : forall r, In r (rows (load_frame f)) -> stored_row_ok r) by exact IH2.
    destruct (Page_eq_submit p) as [->|Hp].
    + destruct (in_submitted i) eqn:E.
      * rewrite (submit_step i _ E). cbn [file].
        assert (Hb : forall r, In r (map write_row (rows (load_frame f)
                                 ++ [new_entry (in_now i) (in_form i)])) -> stored_row_ok r).
        { intros r Hin. apply in_map_iff in Hin. destruct Hin as [r0 [<- Hin]].
          apply stored_row_ok_write. apply in_app_or in Hin. destruct Hin as [Hin|[<-|[]]].
          - exact (Hload r0 Hin).
          - destruct Hw as [Ht [Hv [Hq [Hc _]]]].
            split; [exists (f_temple (in_form i)); split; [reflexivity | exact Ht]|].
            simpl. repeat split; lia. }
        split.
        -- intros hdr body Heq. injection Heq as _ <-. exact Hb.
        -- unfold load_frame, read_csv. cbn [rows]. apply stored_rows_ok_read. exact Hb.
      * rewrite (submit_not_submitted i _ E). split; assumption.
    + rewrite (app_step_keeps p i _ Hp). split; assumption.
Qed.

Lemma entry_bounds_hold_at_rest_witness :
  Forall stored_row_ok (rows (load_frame (file (app_step SubmitPulse inputs_na (start Missing))))).
Proof.
  apply Forall_forall. apply (entry_bounds_hold_at_rest _).
  apply ok_step; [exact ok_init|].
  unfold widget_ok; simpl. split; [left; reflexivity|].
  split; [lia|]. split; [lia|]. split; [lia|]. split.
  - intros x [<-|[<-|[]]]; simpl; auto.
  - constructor; [simpl; intros [H|[]]; discriminate|].
    constructor; [simpl; tauto | constructor].
Defined.

(** ** Temple Overview *)



Lemma heat_markers_no_map rng k rs : ~ In ShowMap (heat_markers rng k rs).
Proof. revert k. induction rs as [|r rs IH]; intros k H; simpl in H; [exact H|].
  destruct H as [H|H]; [discriminate H | exact (IH _ H)]. Qed.


(** ** send_alert_email *)

(** One [send_alert_email] call logs in only on an open connection,
    hands the message (the given subject and body, from the sender to
    ALERT_EMAIL) to [sendmail] only once the login succeeded, and sends
    QUIT exactly when the connection opened, whichever later step
    raised. *)
Theorem send_alert_email_steps run subject body s :
  let msg := {| msg_subject := subject; msg_from := sender;
                msg_to := ALERT_EMAIL; msg_body := body |} in
  exists tr,
    trace (snd (send_alert_email run subject body s)) = trace s ++ tr
    /\ (In (SmtpLogin sender password) tr <-> on_connect run = None)
    /\ sent_messages tr = match on_connect run, on_login run with
                          | None, None => [msg]
                          | _, _ => []
                          end
    /\ (In SmtpQuit tr <-> on_connect run = None).
Proof.
  intro msg. destruct run as [c l m q]; destruct s as [f t].
  destruct c, l, m, q; cbn.
  all: rewrite <- !app_assoc; eexists; split; [reflexivity|].
  all: simpl; split; [intuition discriminate|]; split; [reflexivity|intuition discriminate].
Qed.

(** ** Crowd Alerts *)






(** ** Submission *)

(** [pd.concat([data, new_df])] keeps the columns of [data], in order,
    then adds those of [new_df] it lacks, without repeating one; a new
    row whose columns the store already has leaves the header as it is.
    The rows are those of [data] followed by those of [new_df]. *)
Theorem pd_concat_columns a b :
  (forall c, In c (columns (pd_concat a b)) <-> In c (columns a) \/ In c (columns b))
  /\ (exists extra, columns (pd_concat a b) = columns a ++ extra
                    /\ forall c, In c extra -> ~ In c (columns a))
  /\ (NoDup (columns a) -> NoDup (columns b) -> NoDup (columns (pd_concat a b)))
  /\ (incl (columns b) (columns a) -> columns (pd_concat a b) = columns a)
  /\ rows (pd_concat a b) = rows a ++ rows b.
Proof.
  destruct a as [ca ra], b as [cb rb]. unfold pd_concat, union_cols; cbn [columns rows].
  assert (Hf : forall c, In c (filter (fun c => negb (existsb (String.eqb c) ca)) cb)
                         <-> In c cb /\ ~ In c ca).
  { intro c. rewrite filter_In, negb_true_iff.
    pose proof (existsb_eqb_In c ca) as Hx.
    destruct (existsb (String.eqb c) ca); split; intros [H1 H2]; split; try exact H1.
    - discriminate.
    - exfalso. apply H2. apply Hx. reflexivity.
    - intro H. apply Hx in H. discriminate.
    - reflexivity. }
  split; [|split; [|split; [|split]]].
  - intro c. rewrite in_app_iff, Hf. split.
    + intros [H|[H _]]; [left|right]; exact H.
    + intros [H|H]; [left; exact H|].
      destruct (in_dec string_dec c ca) as [H'|H']; [left; exact H' | right; split; assumption].
  - eexists. split; [reflexivity|]. intros c H. apply Hf in H. apply H.
  - intros N1 N2. apply NoDup_app; [exact N1 | apply NoDup_filter; exact N2|].
    intros c H1 H2. apply Hf in H2. apply H2. exact H1.
  - intro Hi. rewrite <- (app_nil_r ca) at 2. f_equal.
    destruct (filter (fun c => negb (existsb (String.eqb c) ca)) cb) as [|c l] eqn:E;
      [reflexivity|].
    exfalso. assert (Hc : In c cb /\ ~ In c ca) by (apply Hf; left; reflexivity).
    destruct Hc as [H1 H2]. exact (H2 (Hi c H1)).
  - reflexivity.
Qed.

(** A submission ends its run by raising the rerun exception right after
    the success message, once the store is saved: the footer is not
    drawn in that run. Without a submission the page shows its title and
    the footer and leaves the store alone. *)
Theorem submit_run_reruns i s :
  (in_submitted i = true ->
     fst (run_script SubmitPulse i s) = Err RerunException
     /\ trace (app_step SubmitPulse i s)
        = trace s ++ [SidebarTitle "Temple Navigation"; Title "Submit Daily Temple Pulse";
                      Success "Pulse submitted successfully."])
  /\ (in_submitted i = false ->
        run_script SubmitPulse i s
        = (Ok tt, {| file := file s;
                     trace := trace s ++ [SidebarTitle "Temple Navigation"; Title "Submit Daily Temple Pulse";
                                          Markdown "---";
                                          Caption "Built for Temple Governance • Privacy-Safe • Scalable • Open Source"] |})).
Proof.
  split; intro H; unfold app_step, run_script, run_page, submit_page; rewrite H.
  - destruct s as [[|lines|hdr body] tr]; simpl; rewrite <- ?app_assoc; split; reflexivity.
  - destruct s as [f tr]. unfold bind, emit, ret. simpl. rewrite <- !app_assoc. reflexivity.
Qed.

Lemma submit_run_reruns_witness :
  fst (run_script SubmitPulse inputs_na (start store_112)) = Err RerunException.
Proof.
  apply (submit_run_reruns inputs_na (start store_112)). reflexivity.
Defined.

(** Over a whole session, the rows [load_data] returns are, by their
    numeric fields and flag, the starting rows followed by one row per
    submission, in submission order; no other interaction adds, drops
    or changes a row's numbers. *)
Theorem session_store_is_submission_log ps s :
  map row_numbers (rows (load_frame (file (run_session ps s))))
  = map row_numbers (rows (load_frame (file s))) ++ map row_numbers (submitted_entries ps)
  /\ List.length (rows (load_frame (file (run_session ps s))))
     = (List.length (rows (load_frame (file s))) + List.length (submitted_entries ps))%nat.
Proof.
  assert (H : map row_numbers (rows (load_frame (file (run_session ps s))))
              = map row_numbers (rows (load_frame (file s)))
                ++ map row_numbers (submitted_entries ps)).
  { unfold run_session. revert s. induction ps as [|[p i] ps IH]; intro s; simpl.
    - rewrite app_nil_r. reflexivity.
    - rewrite IH. destruct (Page_eq_submit p) as [->|Hp].
      + destruct (in_submitted i) eqn:E.
        * rewrite (submit_step i s E). cbn [file]. unfold load_frame at 1, read_csv. cbn [rows].
          rewrite read_rows_numbers, write_rows_numbers, !map_app, <- app_assoc. reflexivity.
        * rewrite (submit_not_submitted i s E). reflexivity.
      + rewrite (app_step_keeps p i s Hp).
        destruct p; try (exfalso; apply Hp; reflexivity); reflexivity. }
  split; [exact H|].
  apply (f_equal (@List.length _)) in H. rewrite length_app, !length_map in H. exact H.
Qed.

Lemma heat_markers_coords_draws rng k rs :
  marker_coords (heat_markers rng k rs)
  = map (fun j => (uniform 21 24 (rng (k + 2 * j)%nat), uniform 70 74 (rng (k + 2 * j + 1)%nat)))
        (seq 0 (List.length rs)).
Proof.
  revert k. induction rs as [|r rs IH]; intro k; [reflexivity|].
  cbn [heat_markers marker_coords List.length seq map]. rewrite IH.
  rewrite <- seq_shift, map_map. f_equal.
  - replace (k + 2 * 0 + 1)%nat with (S k) by lia. replace (k + 2 * 0)%nat with k by lia.
    reflexivity.
  - apply map_ext. intro j.
    replace (k + 2 * S j)%nat with (S (S k) + 2 * j)%nat by lia.
    replace (k + 2 * S j + 1)%nat with (S (S k) + 2 * j + 1)%nat by lia. reflexivity.
Qed.

(** Each heatmap marker draws its own pair of numbers: the marker of
    the j-th record of the selected temple uses draws 2j (latitude) and
    2j+1 (longitude), so no two markers share a draw. *)
Theorem heatmap_fresh_draws_per_marker i f :
  let F := filter_temple (in_temple i) (rows (load_frame f)) in
  marker_coords (trace (app_step TempleOverview i (start f)))
  = map (fun j => (uniform 21 24 (in_rng i (2 * j)%nat), uniform 70 74 (in_rng i (2 * j + 1)%nat)))
        (seq 0 (List.length F)).
Proof.
  intro F. rewrite overview_marker_coords, heat_markers_coords_draws. reflexivity.
Qed.
